(** * get_css.py: stylesheet link extraction

    A shallow embedding of [whirlpool-dashboard/ml-api/get_css.py] and the
    properties of its specification.

    The script has one function, [get_css_links], and a direct-invocation
    block.  Both are embedded below statement by statement.  What the
    script calls is embedded as follows.

    - [requests.get] and the parser behind [BeautifulSoup(..., 'html.parser')]
      are the outside world: a [World] record supplies, for every request, the
      response or the exception raised, and for every response body the parsed
      tree or the exception raised.
    - The part of BeautifulSoup that the script's result depends on once the
      tree exists is written out: the pre-order walk behind [find_all], the
      matching of a tag against [find_all('link', rel='stylesheet')], the
      splitting of whitespace-separated attributes such as [rel] into lists,
      and [Tag.get].
    - [sys.stdout] is a [Stdout] record: for every string it says whether
      writing it raises, as it does for a string the encoding of the stream
      cannot take or on a stream that is closed.  [print] raises then, and
      nothing of that string is written.

    Python [str] values are [string]s; each character stands for one code
    point below 256.  Exceptions are instances of Python's [Exception], the
    class the handler of [get_css_links] names; interrupts delivered from
    outside the program are not part of the model. *)

From Stdlib Require Import Ascii.
From stdpp Require Import base option list strings gmap pretty.


(** ** Python string operations *)

Module PyStr.

(** [s.startswith(prefix)] *)
Fixpoint startswith (s prefix : string) {struct prefix} : bool :=
  match prefix, s with
  | "", _ => true
  | String p prefix', String c s' => bool_decide (c = p) && startswith s' prefix'
  | String _ _, "" => false
  end.

(** [s.lstrip(chars)] for a one-character [chars]. *)
Fixpoint lstrip (s : string) (ch : Ascii.ascii) : string :=
  match s with
  | "" => ""
  | String c s' => if bool_decide (c = ch) then lstrip s' ch else s
  end.

(** [s.rstrip(chars)] for a one-character [chars]. *)
Fixpoint rstrip (s : string) (ch : Ascii.ascii) : string :=
  match s with
  | "" => ""
  | String c s' =>
      match rstrip s' ch with
      | "" => if bool_decide (c = ch) then "" else String c ""
      | r => String c r
      end
  end.

(** [bool(s)]: a string is true when it is not empty. *)
Definition truthy (s : string) : bool :=
  match s with "" => false | String _ _ => true end.

(** [sep.join(l)] *)
Fixpoint join (sep : string) (l : list string) : string :=
  match l with
  | [] => ""
  | [w] => w
  | w :: ws => w +:+ sep +:+ join sep ws
  end.

(** [c.isspace()] on code points below 256: the characters the regular
    expression class [\s] matches there, and [\S] does not. *)
Definition isspace (c : Ascii.ascii) : bool :=
  let n := Ascii.nat_of_ascii c in
  (((9 <=? n) && (n <=? 13)) || ((28 <=? n) && (n <=? 32))
   || (n =? 133) || (n =? 160))%nat.

(** [re.compile(r"\S+").findall(s)]: the maximal runs of characters that
    are not whitespace, left to right. *)
Fixpoint nonwhitespace_findall (s : string) : list string :=
  match s with
  | "" => []
  | String c s' =>
      let rest := nonwhitespace_findall s' in
      if isspace c then rest
      else
        match s' with
        | "" => [String c ""]
        | String c' _ =>
            if isspace c' then String c "" :: rest
            else match rest with
                 | w :: ws => String c w :: ws
                 | [] => [String c ""]
                 end
        end
  end.

(** [str(n)] for a length. *)
Definition str_of_len (n : nat) : string := pretty n.

(** [s.count(chars)] for a one-character [chars]. *)
Fixpoint count (s : string) (ch : Ascii.ascii) : nat :=
  match s with
  | "" => 0
  | String c s' => (if bool_decide (c = ch) then 1 else 0) + count s' ch
  end.

End PyStr.

(** ** The parsed document *)

(** A tag as the parser hands it over: its name and its attributes, each
    attribute value being the string written in the document.  [html.parser]
    passes names of tags and attributes in lower case and keeps the last of
    several attributes of one name. *)
Record Tag := mkTag {
  name : string;
  attrs : gmap string string
}.

(** The tree: text nodes and elements with their children in document
    order. *)
#[warning="-register-all"] Inductive PageElement :=
| NavigableString (text : string)
| Element (tag : Tag) (contents : list PageElement).

(** [BeautifulSoup] object: the top-level nodes of the document. *)
Definition Soup := list PageElement.

Module bs4.

(** The value BeautifulSoup stores for an attribute: a string, or a list
    of strings for the attributes it treats as whitespace-separated. *)
Inductive AttrValue :=
| AttrStr (s : string)
| AttrList (l : list string).

(** [HTMLTreeBuilder.DEFAULT_CDATA_LIST_ATTRIBUTES]: the attributes stored
    as lists, for every tag (["*"]) and for particular tags. *)
Definition cdata_list_attributes (tag_name : string) : list string :=
  ["class"; "accesskey"; "dropzone"] ++
  (if bool_decide (tag_name = "a") then ["rel"; "rev"]
   else if bool_decide (tag_name = "link") then ["rel"; "rev"]
   else if bool_decide (tag_name = "td") then ["headers"]
   else if bool_decide (tag_name = "th") then ["headers"]
   else if bool_decide (tag_name = "form") then ["accept-charset"]
   else if bool_decide (tag_name = "object") then ["archive"]
   else if bool_decide (tag_name = "area") then ["rel"]
   else if bool_decide (tag_name = "icon") then ["sizes"]
   else if bool_decide (tag_name = "iframe") then ["sandbox"]
   else if bool_decide (tag_name = "output") then ["for"]
   else []).

(** [_replace_cdata_list_attribute_values], for one attribute. *)
Definition attr_value (tag_name key raw : string) : AttrValue :=
  if bool_decide (key ∈ cdata_list_attributes tag_name)
  then AttrList (PyStr.nonwhitespace_findall raw)
  else AttrStr raw.

(** [tag.get(key)]: the stored value, or [None]. *)
Definition get (t : Tag) (key : string) : option AttrValue :=
  attr_value (name t) key <$> attrs t !! key.

(** [SoupStrainer._matches(markup, match_against)] for an attribute value
    and a string to match against.  A list matches when one of its items
    does, or when the items joined by single spaces do. *)
Definition _matches (markup : option AttrValue) (match_against : string) : bool :=
  match markup with
  | None => negb (PyStr.truthy match_against)
  | Some (AttrStr s) => bool_decide (s = match_against)
  | Some (AttrList items) =>
      existsb (λ item, bool_decide (item = match_against)) items
      || bool_decide (PyStr.join " " items = match_against)
  end.

(** [SoupStrainer.search_tag]: the name matches and so does every
    attribute filter. *)
Definition search_tag (want_name : string) (kwargs : list (string * string))
    (t : Tag) : bool :=
  bool_decide (name t = want_name)
  && forallb (λ kv, _matches (get t kv.1) kv.2) kwargs.

(** [Tag.descendants]: every node below, in document order (pre-order). *)
Fixpoint descendants_of (e : PageElement) : list PageElement :=
  e :: match e with
       | NavigableString _ => []
       | Element _ cs =>
           (fix go (l : list PageElement) : list PageElement :=
              match l with
              | [] => []
              | c :: l' => descendants_of c ++ go l'
              end) cs
       end.

Definition descendants (soup : Soup) : list PageElement :=
  flat_map descendants_of soup.

(** [soup.find_all(name, **kwargs)]: the matching tags among the
    descendants, in the order of the walk.  Text nodes never match a
    search by name. *)
Definition find_all (soup : Soup) (want_name : string)
    (kwargs : list (string * string)) : list Tag :=
  omap (λ e, match e with
             | NavigableString _ => None
             | Element t _ => if search_tag want_name kwargs t then Some t else None
             end) (descendants soup).

End bs4.

(** ** Exceptions, standard output and statements *)

(** An instance of [Exception]: its class name and [str(e)]. *)
Record Exception := mkException {
  exc_class : string;
  exc_str : string
}.

(** What evaluating an expression gives: a value, or a raised exception. *)
Inductive Outcome (A : Type) :=
| Return (a : A)
| Raise (e : Exception).
Arguments Return {A} a.
Arguments Raise {A} e.

#[global] Instance Outcome_ret : MRet Outcome := λ A a, Return a.
#[global] Instance Outcome_bind : MBind Outcome := λ A B f m,
  match m with
  | Return a => f a
  | Raise e => Raise e
  end.

(** A statement that may print: from the text on standard output so far to
    its outcome and the text afterwards. *)
Definition Py (A : Type) : Type := string → Outcome A * string.

#[global] Instance Py_ret : MRet Py := λ A a out, (Return a, out).
#[global] Instance Py_bind : MBind Py := λ A B f m out,
  match m out with
  | (Return a, out') => f a out'
  | (Raise e, out') => (Raise e, out')
  end.

Definition newline : string := String "010"%char "".

(** [sys.stdout]: the exception that writing a string to it raises, if any
    ([UnicodeEncodeError] for a string the encoding cannot take, [OSError]
    on a closed stream). *)
Record Stdout := mkStdout {
  write_error : string → option Exception
}.

(** [print(s)]: the text and a line end are written, unless writing the text
    raises; then the exception goes on and nothing is written. *)
Definition print (C : Stdout) (s : string) : Py unit :=
  λ out,
    match write_error C s with
    | None => (Return (), out +:+ s +:+ newline)
    | Some e => (Raise e, out)
    end.

(** An expression that prints nothing, used as a statement. *)
Definition lift {A} (o : Outcome A) : Py A := λ out, (o, out).

(** [try: body / except Exception as e: handler] *)
Definition try_except {A} (body : Py A) (handler : Exception → Py A) : Py A :=
  λ out,
    match body out with
    | (Return a, out') => (Return a, out')
    | (Raise e, out') => handler e out'
    end.

(** [for x in l: s = body(s, x)], stopping at the first exception. *)
Fixpoint for_in {S X} (l : list X) (body : S → X → Outcome S) (s : S) : Outcome S :=
  match l with
  | [] => Return s
  | x :: l' =>
      match body s x with
      | Return s' => for_in l' body s'
      | Raise e => Raise e
      end
  end.

(** [for x in l: print-like statement] *)
Fixpoint for_each {X} (l : list X) (body : X → Py unit) : Py unit :=
  match l with
  | [] => mret ()
  | x :: l' => body x ;; for_each l' body
  end.

(** ** The outside world *)

(** [requests.Response]: the script reads [content] only. *)
Record Response := mkResponse {
  status_code : nat;
  content : string
}.

(** What the network answers to [requests.get(url, headers=headers)], and
    what [BeautifulSoup(markup, features)] builds. *)
Record World := mkWorld {
  requests_get : string → gmap string string → Outcome Response;
  BeautifulSoup : string → string → Outcome Soup
}.

(** ** get_css.py *)

Definition headers : gmap string string :=
  {[ "User-Agent" := "Mozilla/5.0 (Windows NT 10.0; Win64; x64) AppleWebKit/537.36 (KHTML, like Gecko) Chrome/91.0.4472.124 Safari/537.36" ]}.

(** Lines 17-21: the new value of [href] once it is known to be true. *)
Definition normalized_href (url href : string) : string :=
  if negb (PyStr.startswith href "http") then
    if PyStr.startswith href "//" then "https:" +:+ href
    else PyStr.rstrip url "/"%char +:+ "/" +:+ PyStr.lstrip href "/"%char
  else href.

(** [href.startswith] on a list. *)
Definition AttributeError_startswith : Exception :=
  mkException "AttributeError" "'list' object has no attribute 'startswith'".

(** Lines 14-22: the body of the loop, as a step on [css_links]. *)
Definition loop_body (url : string) (css_links : list string) (link : Tag)
    : Outcome (list string) :=
  let href := bs4.get link "href" in
  match href with
  | None => Return css_links
  | Some (bs4.AttrStr h) =>
      if PyStr.truthy h then Return (css_links ++ [normalized_href url h])
      else Return css_links
  | Some (bs4.AttrList []) => Return css_links
  | Some (bs4.AttrList (_ :: _)) => Raise AttributeError_startswith
  end.

(** Lines 8-23: the statements under [try]. *)
Definition try_block (W : World) (url : string) : Py (list string) :=
  response ← lift (requests_get W url headers);
  soup ← lift (BeautifulSoup W (content response) "html.parser");
  let css_links := [] in
  css_links ← lift (for_in (bs4.find_all soup "link" [("rel", "stylesheet")])
                           (loop_body url) css_links);
  mret css_links.

(** Lines 6-26: the function, with its handler. *)
Definition get_css_links (C : Stdout) (W : World) (url : string)
    : Py (list string) :=
  try_except (try_block W url)
    (λ e, print C ("Error: " +:+ exc_str e) ;; mret []).

(** Lines 28-33, the block run when the file is executed. *)
Definition main (C : Stdout) (W : World) : Py unit :=
  let url := "https://landonorris.com/" in
  links ← get_css_links C W url;
  print C ("Found " +:+ PyStr.str_of_len (length links) +:+ " CSS files:") ;;
  for_each links (λ link, print C link).

(** Running the file: the exit status of the interpreter (0 when the block
    ends, 1 when an exception reaches the top) and the text printed. *)
Definition run_script (C : Stdout) (W : World) : nat * string :=
  match main C W "" with
  | (Return _, out) => (0, out)
  | (Raise _, out) => (1, out)
  end.

(** ** Vocabulary of the specification *)

(** The call of line 13. *)
Definition stylesheet_links (soup : Soup) : list Tag :=
  bs4.find_all soup "link" [("rel", "stylesheet")].

(** A stylesheet link element: a tag that call selects. *)
Definition stylesheet_link (t : Tag) : bool :=
  bs4.search_tag "link" [("rel", "stylesheet")] t.

(** The href attribute as written in the document. *)
Definition href_of (t : Tag) : option string := attrs t !! "href".

(** A usable href: present and not empty. *)
Definition usable_href (t : Tag) : bool :=
  match href_of t with
  | Some h => PyStr.truthy h
  | None => false
  end.

(** What one selected tag adds to [css_links]. *)
Definition entry (url : string) (t : Tag) : list string :=
  match href_of t with
  | Some h => if PyStr.truthy h then [normalized_href url h] else []
  | None => []
  end.

(** The tags among a list of nodes. *)
Definition tags_of (l : list PageElement) : list Tag :=
  omap (λ e, match e with
             | NavigableString _ => None
             | Element t _ => Some t
             end) l.

(** A link element whose rel attribute is the string [stylesheet]. *)
Definition rel_equals_stylesheet (t : Tag) : bool :=
  bool_decide (name t = "link") && bool_decide (attrs t !! "rel" = Some "stylesheet").

(** A link element whose rel attribute, split at whitespace, has the token
    [stylesheet]. *)
Definition rel_has_stylesheet_token (t : Tag) : bool :=
  bool_decide (name t = "link")
  && match attrs t !! "rel" with
     | Some raw => bool_decide ("stylesheet" ∈ PyStr.nonwhitespace_findall raw)
     | None => false
     end.

(** The normalization rule in the words of the specification. *)
Definition href_rule (url href : string) : string :=
  if PyStr.startswith href "http" then href
  else if PyStr.startswith href "//" then "https:" +:+ href
  else PyStr.rstrip url "/"%char +:+ "/" +:+ PyStr.lstrip href "/"%char.

(** Schemes are compared without regard to the case of the letters A-Z. *)
Definition lower_letter (c : ascii) : ascii :=
  let n := nat_of_ascii c in
  if ((65 <=? n) && (n <=? 90))%nat then ascii_of_nat (n + 32) else c.

Fixpoint lower_letters (s : string) : string :=
  match s with
  | "" => ""
  | String c s' => String (lower_letter c) (lower_letters s')
  end.

(** An absolute HTTP(S) URL, as far as its beginning goes: the scheme
    [http] or [https], in any letter case, then [://]. *)
Definition absolute_http_url (url : string) : bool :=
  PyStr.startswith (lower_letters url) "http://"
  || PyStr.startswith (lower_letters url) "https://".

(** A string that begins with the scheme [http] or [https], in any letter
    case. *)
Definition begins_with_http_scheme (s : string) : bool :=
  PyStr.startswith (lower_letters s) "http:"
  || PyStr.startswith (lower_letters s) "https:".

(** The strings a stream takes. *)
Definition accepts (C : Stdout) (s : string) : Prop := write_error C s = None.

(** The lines [print] writes for a list of strings. *)
Definition lines (l : list string) : string :=
  foldr (λ s acc, s +:+ newline +:+ acc) "" l.

(** ** Sample documents and worlds *)

Definition link_tag (rel href : string) : Tag :=
  mkTag "link" {[ "rel" := rel; "href" := href ]}.

Definition stylesheet_tag (href : string) : Tag := link_tag "stylesheet" href.

Definition bare_stylesheet_tag : Tag := mkTag "link" {[ "rel" := "stylesheet" ]}.

Definition sample_page : Soup :=
  [Element (mkTag "html" ∅)
     [Element (mkTag "head" ∅)
        [Element (stylesheet_tag "https://cdn.example.com/a.css") [];
         Element (link_tag "icon" "/favicon.ico") [];
         Element (stylesheet_tag "http://example.com/b.css") [];
         Element (stylesheet_tag "https://cdn.example.com/a.css") []];
      Element (mkTag "body" ∅) [NavigableString "text"]]].

Definition mixed_page : Soup :=
  [Element (mkTag "head" ∅)
     [Element (stylesheet_tag "style.css") [];
      Element bare_stylesheet_tag [];
      Element (stylesheet_tag "") [];
      Element (stylesheet_tag "//cdn.example.com/a.css") []]].

(** A world that serves one document for every request. *)
Definition world_serving (status : nat) (soup : Soup) : World :=
  mkWorld (λ _ _, Return (mkResponse status "<html>")) (λ _ _, Return soup).

(** A stream that takes every string. *)
Definition utf8_stdout : Stdout := mkStdout (λ _, None).

Definition UnicodeEncodeError : Exception :=
  mkException "UnicodeEncodeError"
    "'ascii' codec can't encode character: ordinal not in range(128)".

Definition is_ascii_text (s : string) : bool :=
  forallb (λ c, nat_of_ascii c <? 128) (String.list_ascii_of_string s).

(** A stream with the encoding [ascii]. *)
Definition ascii_stdout : Stdout :=
  mkStdout (λ s, if is_ascii_text s then None else Some UnicodeEncodeError).

(** A name with the letter e-acute, code point 233. *)
Definition cafe : string := "caf" +:+ String (ascii_of_nat 233) "".

(** A world in which the request fails. *)
Definition world_failing (e : Exception) : World :=
  mkWorld (λ _ _, Raise e) (λ _ _, Return []).

Definition ConnectionError : Exception :=
  mkException "ConnectionError" "connection refused".

(** ** Facts about the string operations *)

Lemma app_cons (a : ascii) (s1 s2 : string) :
  String a s1 +:+ s2 = String a (s1 +:+ s2).
Proof. reflexivity. Qed.

Lemma app_assoc_str (s1 s2 s3 : string) :
  (s1 +:+ s2) +:+ s3 = s1 +:+ s2 +:+ s3.
Proof.
  induction s1 as [|a s1 IH]; [reflexivity|].
  rewrite !app_cons. by rewrite IH.
Qed.

Lemma startswith_app (p r : string) : PyStr.startswith (p +:+ r) p = true.
Proof.
  induction p as [|a p IH]; [reflexivity|].
  rewrite app_cons. simpl. rewrite bool_decide_true by done. exact IH.
Qed.

Lemma startswith_inv (p s : string) :
  PyStr.startswith s p = true → ∃ r, s = p +:+ r.
Proof.
  revert s. induction p as [|a p IH]; intros s H.
  - by exists s.
  - destruct s as [|c s]; [discriminate|]. simpl in H.
    apply andb_true_iff in H as [Hc Hs].
    apply bool_decide_eq_true in Hc as ->.
    destruct (IH _ Hs) as [r ->]. by exists r.
Qed.

Lemma rstrip_cons_ne (c ch : ascii) (s : string) :
  c ≠ ch → PyStr.rstrip (String c s) ch = String c (PyStr.rstrip s ch).
Proof.
  intros Hne. simpl. destruct (PyStr.rstrip s ch); [|reflexivity].
  by rewrite bool_decide_false.
Qed.

Lemma rstrip_http (r : string) :
  PyStr.rstrip ("http" +:+ r) "/" = "http" +:+ PyStr.rstrip r "/".
Proof.
  rewrite !app_cons. by rewrite !rstrip_cons_ne.
Qed.

Lemma app_space_not_stylesheet (w r : string) :
  w +:+ String " " r ≠ "stylesheet".
Proof.
  intros H.
  do 10 (destruct w as [|? w]; [discriminate H|];
         rewrite app_cons in H; injection H as _ H).
  destruct w; discriminate H.
Qed.

Lemma join_stylesheet (items : list string) :
  PyStr.join " " items = "stylesheet" → "stylesheet" ∈ items.
Proof.
  destruct items as [|w [|w' ws]]; simpl.
  - discriminate.
  - intros ->. apply list_elem_of_here.
  - intros H. by apply app_space_not_stylesheet in H.
Qed.

Example rstrip_trailing_slashes :
  PyStr.rstrip "https://example.com///" "/" = "https://example.com"
  ∧ PyStr.rstrip "a/b" "/" = "a/b"
  ∧ PyStr.rstrip "//" "/" = "".
Proof. repeat split. Qed.

Example lstrip_leading_slashes :
  PyStr.lstrip "//a/b/" "/" = "a/b/" ∧ PyStr.lstrip "a/" "/" = "a/".
Proof. repeat split. Qed.

Example findall_tokens :
  PyStr.nonwhitespace_findall "  alternate   stylesheet " = ["alternate"; "stylesheet"]
  ∧ PyStr.nonwhitespace_findall "stylesheet" = ["stylesheet"]
  ∧ PyStr.nonwhitespace_findall "" = [].
Proof. repeat split. Qed.

Example str_of_len_decimal :
  PyStr.str_of_len 0 = "0" ∧ PyStr.str_of_len 12 = "12".
Proof. repeat split. Qed.

(** ** Facts about the BeautifulSoup operations *)

(** [href] is stored as a string for every tag. *)
Lemma href_not_cdata_list (n : string) : "href" ∉ bs4.cdata_list_attributes n.
Proof.
  unfold bs4.cdata_list_attributes. intros [Hin|Hin]%elem_of_app.
  - apply list_elem_of_In in Hin. simpl in Hin. intuition discriminate.
  - repeat destruct (bool_decide _) in Hin;
      apply list_elem_of_In in Hin; simpl in Hin; intuition discriminate.
Qed.

Lemma get_href (t : Tag) : bs4.get t "href" = bs4.AttrStr <$> href_of t.
Proof.
  unfold bs4.get, href_of. destruct (attrs t !! "href"); [|reflexivity].
  simpl. unfold bs4.attr_value.
  by rewrite bool_decide_false by apply href_not_cdata_list.
Qed.

(** [rel] is stored as a list of tokens for a link tag. *)
Lemma get_rel_link (t : Tag) :
  name t = "link" →
  bs4.get t "rel"
  = (λ raw, bs4.AttrList (PyStr.nonwhitespace_findall raw)) <$> attrs t !! "rel".
Proof.
  intros Hn. unfold bs4.get. rewrite Hn. by destruct (attrs t !! "rel").
Qed.

Lemma matches_token_list (items : list string) :
  bs4._matches (Some (bs4.AttrList items)) "stylesheet"
  = bool_decide ("stylesheet" ∈ items).
Proof.
  unfold bs4._matches. destruct (decide ("stylesheet" ∈ items)) as [Hin|Hin].
  - rewrite (bool_decide_true _ Hin).
    apply orb_true_iff. left. apply existsb_exists.
    exists "stylesheet". split; [by apply list_elem_of_In|].
    by apply bool_decide_eq_true.
  - rewrite (bool_decide_false _ Hin).
    apply orb_false_iff. split.
    + apply not_true_is_false. intros (x & Hx & Heq)%existsb_exists.
      apply bool_decide_eq_true in Heq as ->. by apply list_elem_of_In in Hx.
    + apply bool_decide_eq_false. intros Hj. by apply join_stylesheet in Hj.
Qed.

(** The filter of line 13 selects the link tags with the token. *)
Lemma stylesheet_link_token (t : Tag) :
  stylesheet_link t = rel_has_stylesheet_token t.
Proof.
  unfold stylesheet_link, rel_has_stylesheet_token, bs4.search_tag.
  case_bool_decide as Hn; [|reflexivity]. simpl. rewrite andb_true_r.
  rewrite (get_rel_link _ Hn).
  destruct (attrs t !! "rel") as [raw|]; [|reflexivity].
  apply matches_token_list.
Qed.

Lemma stylesheet_links_filter (soup : Soup) :
  stylesheet_links soup
  = List.filter rel_has_stylesheet_token (tags_of (bs4.descendants soup)).
Proof.
  unfold stylesheet_links, bs4.find_all, tags_of.
  induction (bs4.descendants soup) as [|[s|t cs] l IH]; simpl; [done..|].
  change (bs4.search_tag "link" [("rel", "stylesheet")] t) with (stylesheet_link t).
  rewrite stylesheet_link_token.
  destruct (rel_has_stylesheet_token t); simpl; [f_equal|]; exact IH.
Qed.

(** ** Facts about the loop *)

Lemma loop_body_entry (url : string) (css_links : list string) (t : Tag) :
  loop_body url css_links t = Return (css_links ++ entry url t).
Proof.
  unfold loop_body, entry. rewrite get_href.
  destruct (href_of t) as [h|]; simpl; [destruct (PyStr.truthy h)|];
    by rewrite ?app_nil_r.
Qed.

(** The loop never raises. *)
Lemma for_in_loop_body (url : string) (tags : list Tag) (css_links : list string) :
  for_in tags (loop_body url) css_links
  = Return (css_links ++ flat_map (entry url) tags).
Proof.
  revert css_links. induction tags as [|t tags IH]; intros css_links; simpl.
  - by rewrite app_nil_r.
  - rewrite loop_body_entry, IH. by rewrite <- app_assoc.
Qed.

(** ** The ways a call ends *)

Ltac run_get_css_links :=
  unfold get_css_links, try_except, try_block, mbind, Py_bind, lift.

Lemma get_css_links_ok C W url out r soup :
  requests_get W url headers = Return r →
  BeautifulSoup W (content r) "html.parser" = Return soup →
  get_css_links C W url out
  = (Return (flat_map (entry url) (stylesheet_links soup)), out).
Proof.
  intros Hr Hs. run_get_css_links.
  rewrite Hr, Hs.
  change (bs4.find_all soup "link" [("rel", "stylesheet")]) with (stylesheet_links soup).
  by rewrite for_in_loop_body.
Qed.

Lemma try_block_prints_nothing W url out o out' :
  try_block W url out = (o, out') → out' = out.
Proof.
  unfold try_block, mbind, Py_bind, lift.
  destruct (requests_get W url headers) as [r|e]; [|by intros [= _ <-]].
  destruct (BeautifulSoup W (content r) "html.parser") as [soup|e];
    [|by intros [= _ <-]].
  rewrite for_in_loop_body. by intros [= _ <-].
Qed.

Lemma try_block_fetch_error W url out e :
  requests_get W url headers = Raise e → try_block W url out = (Raise e, out).
Proof. intros Hr. unfold try_block, mbind, Py_bind, lift. by rewrite Hr. Qed.

Lemma try_block_parse_error W url out r e :
  requests_get W url headers = Return r →
  BeautifulSoup W (content r) "html.parser" = Raise e →
  try_block W url out = (Raise e, out).
Proof.
  intros Hr Hs. unfold try_block, mbind, Py_bind, lift. by rewrite Hr, Hs.
Qed.

(** The handler: the diagnostic is printed, or the exception of [print]
    goes on. *)
Lemma get_css_links_after_raise C W url out e :
  try_block W url out = (Raise e, out) →
  get_css_links C W url out
  = match write_error C ("Error: " +:+ exc_str e) with
    | None => (Return [], out +:+ ("Error: " +:+ exc_str e) +:+ newline)
    | Some e' => (Raise e', out)
    end.
Proof.
  intros Hb. unfold get_css_links, try_except. rewrite Hb.
  unfold mbind, Py_bind, print.
  by destruct (write_error C ("Error: " +:+ exc_str e)).
Qed.

Lemma get_css_links_after_raise_accepted C W url out e :
  try_block W url out = (Raise e, out) →
  accepts C ("Error: " +:+ exc_str e) →
  get_css_links C W url out
  = (Return [], out +:+ ("Error: " +:+ exc_str e) +:+ newline).
Proof.
  intros Hb Ha. rewrite (get_css_links_after_raise _ _ _ _ _ Hb).
  unfold accepts in Ha. by rewrite Ha.
Qed.

Lemma get_css_links_after_raise_refused C W url out e e' :
  try_block W url out = (Raise e, out) →
  write_error C ("Error: " +:+ exc_str e) = Some e' →
  get_css_links C W url out = (Raise e', out).
Proof.
  intros Hb Hw. rewrite (get_css_links_after_raise _ _ _ _ _ Hb). by rewrite Hw.
Qed.

(** The three ways the try block ends. *)
Lemma try_block_cases W url out :
  (∃ r soup,
     requests_get W url headers = Return r
     ∧ BeautifulSoup W (content r) "html.parser" = Return soup
     ∧ try_block W url out
       = (Return (flat_map (entry url) (stylesheet_links soup)), out))
  ∨ (∃ e, try_block W url out = (Raise e, out)
          ∧ (requests_get W url headers = Raise e
             ∨ ∃ r, requests_get W url headers = Return r
                    ∧ BeautifulSoup W (content r) "html.parser" = Raise e)).
Proof.
  destruct (requests_get W url headers) as [r|e] eqn:Hr.
  - destruct (BeautifulSoup W (content r) "html.parser") as [soup|e] eqn:Hs.
    + left. exists r, soup. repeat split; [done|].
      unfold try_block, mbind, Py_bind, lift. rewrite Hr, Hs.
      change (bs4.find_all soup "link" [("rel", "stylesheet")])
        with (stylesheet_links soup).
      by rewrite for_in_loop_body.
    + right. exists e. split; [by apply (try_block_parse_error _ _ _ r)|].
      right. by exists r.
  - right. exists e. split; [by apply try_block_fetch_error|by left].
Qed.

Lemma normalized_href_rule (url h : string) : normalized_href url h = href_rule url h.
Proof.
  unfold normalized_href, href_rule. by destruct (PyStr.startswith h "http").
Qed.

Lemma normalized_href_fixed (url x : string) :
  PyStr.startswith x "http" = true → normalized_href url x = x.
Proof. intros Hx. unfold normalized_href. by rewrite Hx. Qed.

Lemma truthy_ne (h : string) : h ≠ "" → PyStr.truthy h = true.
Proof. by destruct h. Qed.

Lemma startswith_http_truthy (h : string) :
  PyStr.startswith h "http" = true → PyStr.truthy h = true.
Proof. by destruct h. Qed.

Lemma entries_length (url : string) (tags : list Tag) :
  length (flat_map (entry url) tags) = length (List.filter usable_href tags).
Proof.
  induction tags as [|t tags IH]; [reflexivity|]. simpl.
  rewrite length_app, IH. unfold entry, usable_href.
  destruct (href_of t) as [h|]; [destruct (PyStr.truthy h)|]; reflexivity.
Qed.

Lemma elem_of_entry (url s : string) (t : Tag) :
  s ∈ entry url t ↔ ∃ h, href_of t = Some h ∧ h ≠ "" ∧ s = normalized_href url h.
Proof.
  unfold entry. destruct (href_of t) as [h|].
  - destruct h as [|c h]; cbn [PyStr.truthy].
    + split; [by intros ?%elem_of_nil|]. by intros (h & [= <-] & Hne & _).
    + rewrite list_elem_of_singleton. split.
      * intros ->. by exists (String c h).
      * by intros (h' & [= <-] & _ & ->).
  - split; [by intros ?%elem_of_nil|]. by intros (h & [=] & _).
Qed.

(** ** Sample runs *)

Example run_on_mixed_page :
  get_css_links utf8_stdout (world_serving 200 mixed_page) "https://example.com/" ""
  = (Return ["https://example.com/style.css"; "https://cdn.example.com/a.css"], "").
Proof. reflexivity. Qed.

Example run_on_empty_href :
  get_css_links utf8_stdout (world_serving 200 [Element (stylesheet_tag "") []])
    "https://example.com" ""
  = (Return [], "").
Proof. reflexivity. Qed.

Example run_on_alternate_stylesheet :
  get_css_links utf8_stdout
    (world_serving 200
       [Element (link_tag "alternate stylesheet" "http://example.com/b.css") []])
    "https://example.com/" ""
  = (Return ["http://example.com/b.css"], "").
Proof. reflexivity. Qed.

Example script_on_mixed_page :
  run_script utf8_stdout (world_serving 200 mixed_page)
  = (0, "Found 2 CSS files:" +:+ newline
        +:+ "https://landonorris.com/style.css" +:+ newline
        +:+ "https://cdn.example.com/a.css" +:+ newline).
Proof. reflexivity. Qed.

Example script_on_failure :
  run_script utf8_stdout (world_failing ConnectionError)
  = (0, "Error: connection refused" +:+ newline
        +:+ "Found 0 CSS files:" +:+ newline).
Proof. reflexivity. Qed.

Example script_on_ascii_stdout :
  run_script ascii_stdout
    (world_serving 200 [Element (stylesheet_tag ("/css/" +:+ cafe +:+ ".css")) []])
  = (1, "Found 1 CSS files:" +:+ newline).
Proof. reflexivity. Qed.

Example failure_on_ascii_stdout :
  get_css_links ascii_stdout
    (world_failing (mkException "ConnectionError" ("no route to " +:+ cafe)))
    "https://example.com/" ""
  = (Raise UnicodeEncodeError, "").
Proof. reflexivity. Qed.

(** ** The normalization of one href *)

(** C1, as stated, fails at an empty href: the attribute is there, the rule
    would give the page URL followed by [/], and the loop appends nothing. *)
Lemma empty_href_is_not_normalized :
  ¬ (∀ (url : string) (css_links : list string) (t : Tag) (h : string),
       stylesheet_link t = true →
       href_of t = Some h →
       loop_body url css_links t = Return (css_links ++ [href_rule url h])).
Proof.
  intros H.
  specialize (H "https://example.com" [] (stylesheet_tag "") "" eq_refl eq_refl).
  discriminate H.
Qed.

(** C1, amended: for every stylesheet link element whose href is present and
    not empty, the loop appends exactly the href unchanged when it begins
    with [http], the href after [https:] when it begins with [//], and
    otherwise the page URL without trailing [/], then [/], then the href
    without leading [/]. *)
Theorem nonempty_href_is_normalized
    (url : string) (css_links : list string) (t : Tag) (h : string) :
  stylesheet_link t = true →
  href_of t = Some h →
  h ≠ "" →
  loop_body url css_links t
  = Return (css_links ++
      [if PyStr.startswith h "http" then h
       else if PyStr.startswith h "//" then "https:" +:+ h
       else PyStr.rstrip url "/" +:+ "/" +:+ PyStr.lstrip h "/"]).
Proof.
  intros _ Hh Hne. rewrite loop_body_entry. unfold entry.
  rewrite Hh, (truthy_ne _ Hne), normalized_href_rule. reflexivity.
Qed.

Lemma nonempty_href_is_normalized_witness :
  loop_body "https://example.com/" ["https://example.com/a.css"]
    (stylesheet_tag "/static/site.css")
  = Return ["https://example.com/a.css"; "https://example.com/static/site.css"].
Proof.
  apply (nonempty_href_is_normalized "https://example.com/"
           ["https://example.com/a.css"] (stylesheet_tag "/static/site.css")
           "/static/site.css");
    [reflexivity | reflexivity | discriminate].
Defined.

(** C5: the three sample normalizations of the specification. *)
Theorem normalization_samples :
  (∀ url css_links,
     loop_body url css_links (stylesheet_tag "//cdn.example.com/a.css")
     = Return (css_links ++ ["https://cdn.example.com/a.css"]))
  ∧ (∀ css_links,
       loop_body "https://example.com/" css_links (stylesheet_tag "style.css")
       = Return (css_links ++ ["https://example.com/style.css"]))
  ∧ (∀ css_links,
       loop_body "https://example.com" css_links (stylesheet_tag "/style.css")
       = Return (css_links ++ ["https://example.com/style.css"])).
Proof.
  repeat split; intros; rewrite loop_body_entry; reflexivity.
Qed.

(** ** Elements without a usable href *)

(** C7: a stylesheet link element without a href attribute leaves
    [css_links] as it is and raises nothing; after a successful fetch and
    parse nothing is printed, and the number of results is the number of
    stylesheet link elements with a usable href. *)
Theorem missing_href_is_skipped :
  (∀ url css_links t,
     stylesheet_link t = true → href_of t = None →
     loop_body url css_links t = Return css_links)
  ∧ (∀ C W url out r soup,
       requests_get W url headers = Return r →
       BeautifulSoup W (content r) "html.parser" = Return soup →
       ∃ links,
         get_css_links C W url out = (Return links, out)
         ∧ length links = length (List.filter usable_href (stylesheet_links soup))).
Proof.
  split.
  - intros url css_links t _ Hh. rewrite loop_body_entry. unfold entry.
    rewrite Hh. apply f_equal, app_nil_r.
  - intros C W url out r soup Hr Hs. eexists. split.
    + by apply (get_css_links_ok C W url out r soup).
    + apply entries_length.
Qed.

Lemma missing_href_is_skipped_witness :
  loop_body "https://example.com" ["https://example.com/style.css"] bare_stylesheet_tag
  = Return ["https://example.com/style.css"]
  ∧ ∃ links,
      get_css_links utf8_stdout (world_serving 200 mixed_page) "https://example.com" ""
      = (Return links, "")
      ∧ length links = 2.
Proof.
  split.
  - apply (proj1 missing_href_is_skipped); reflexivity.
  - apply (proj2 missing_href_is_skipped utf8_stdout (world_serving 200 mixed_page)
             "https://example.com" "" (mkResponse 200 "<html>") mixed_page);
      reflexivity.
Defined.

(** C10: a stylesheet link element whose href is the empty string adds no
    entry, exactly as if the attribute were absent: the test of line 15 is
    the truth value of the href. *)
Theorem empty_href_is_skipped (url : string) (css_links : list string) (t : Tag) :
  stylesheet_link t = true →
  href_of t = Some "" →
  loop_body url css_links t = Return css_links
  ∧ loop_body url css_links t
    = loop_body url css_links (mkTag (name t) (delete "href" (attrs t)))
  ∧ usable_href t = false
  ∧ ∀ before after acc,
      for_in (before ++ t :: after) (loop_body url) acc
      = for_in (before ++ after) (loop_body url) acc.
Proof.
  intros _ Hh.
  assert (He : entry url t = []) by (unfold entry; by rewrite Hh).
  repeat split.
  - rewrite loop_body_entry, He. apply f_equal, app_nil_r.
  - rewrite !loop_body_entry, He. unfold entry, href_of. simpl.
    by rewrite lookup_delete_eq.
  - unfold usable_href. by rewrite Hh.
  - intros before after acc. rewrite !for_in_loop_body, !flat_map_app. simpl.
    by rewrite He.
Qed.

Lemma empty_href_is_skipped_witness :
  loop_body "https://example.com" ["https://example.com/style.css"] (stylesheet_tag "")
  = Return ["https://example.com/style.css"].
Proof.
  apply (empty_href_is_skipped "https://example.com"
           ["https://example.com/style.css"] (stylesheet_tag ""));
    reflexivity.
Defined.

(** ** Which elements are collected *)

Lemma absolute_entries (url : string) (tags : list Tag) :
  (∀ t, t ∈ tags → ∃ h, href_of t = Some h ∧ PyStr.startswith h "http" = true) →
  flat_map (entry url) tags = omap href_of tags
  ∧ length (omap href_of tags) = length tags.
Proof.
  induction tags as [|t tags IH]; intros Habs; [done|].
  destruct (Habs t) as (h & Hh & Hp); [apply list_elem_of_here|].
  destruct IH as [IH1 IH2].
  { intros t' Ht'. apply Habs. by apply list_elem_of_further. }
  assert (He : entry url t = [h]).
  { unfold entry, normalized_href.
    by rewrite Hh, (startswith_http_truthy _ Hp), Hp. }
  cbn [flat_map]. rewrite He, IH1.
  change (omap href_of (t :: tags))
    with (match href_of t with Some y => y :: omap href_of tags | None => omap href_of tags end).
  rewrite Hh. simpl. by rewrite IH2.
Qed.

(** C6: when every stylesheet link element of the document has a href that
    begins with [http], the result is the list of those hrefs, unchanged, in
    document order; nothing is merged, so there are as many results as
    there are such elements. *)
Theorem absolute_hrefs_are_returned_unchanged
    (C : Stdout) (W : World) (url out : string) (r : Response) (soup : Soup) :
  requests_get W url headers = Return r →
  BeautifulSoup W (content r) "html.parser" = Return soup →
  (∀ t, t ∈ stylesheet_links soup →
        ∃ h, href_of t = Some h ∧ PyStr.startswith h "http" = true) →
  get_css_links C W url out = (Return (omap href_of (stylesheet_links soup)), out)
  ∧ length (omap href_of (stylesheet_links soup)) = length (stylesheet_links soup).
Proof.
  intros Hr Hs Habs.
  destruct (absolute_entries url _ Habs) as [He Hl].
  split; [|exact Hl].
  rewrite (get_css_links_ok C W url out r soup Hr Hs). by rewrite He.
Qed.

Lemma sample_page_absolute (t : Tag) :
  t ∈ stylesheet_links sample_page →
  ∃ h, href_of t = Some h ∧ PyStr.startswith h "http" = true.
Proof.
  intros Ht.
  assert (Hl : stylesheet_links sample_page
               = [stylesheet_tag "https://cdn.example.com/a.css";
                  stylesheet_tag "http://example.com/b.css";
                  stylesheet_tag "https://cdn.example.com/a.css"])
    by reflexivity.
  rewrite Hl, !elem_of_cons in Ht.
  destruct Ht as [->|[->|[->|Ht]]];
    [eexists; split; reflexivity ..|].
  by apply not_elem_of_nil in Ht.
Defined.

Lemma absolute_hrefs_are_returned_unchanged_witness :
  get_css_links utf8_stdout (world_serving 200 sample_page) "https://example.com/" ""
  = (Return ["https://cdn.example.com/a.css"; "http://example.com/b.css";
             "https://cdn.example.com/a.css"], "")
  ∧ length (omap href_of (stylesheet_links sample_page))
    = length (stylesheet_links sample_page).
Proof.
  apply (absolute_hrefs_are_returned_unchanged utf8_stdout
           (world_serving 200 sample_page)
           "https://example.com/" "" (mkResponse 200 "<html>") sample_page);
    [reflexivity | reflexivity | exact sample_page_absolute].
Defined.

(** C4, as stated, fails when [stylesheet] is one of several tokens of the
    rel attribute: the call of line 13 selects that element although its rel
    attribute is not the string [stylesheet], and its href is returned. *)
Lemma rel_with_several_tokens_is_collected :
  ¬ (∀ (C : Stdout) (W : World) (url out : string) (r : Response) (soup : Soup),
       requests_get W url headers = Return r →
       BeautifulSoup W (content r) "html.parser" = Return soup →
       get_css_links C W url out
       = (Return (flat_map (entry url)
                    (List.filter rel_equals_stylesheet
                       (tags_of (bs4.descendants soup)))), out)).
Proof.
  intros H.
  specialize (H utf8_stdout
                (world_serving 200
                   [Element (link_tag "alternate stylesheet" "http://example.com/b.css") []])
                "https://example.com/" "" (mkResponse 200 "<html>") _
                eq_refl eq_refl).
  discriminate H.
Qed.

(** C4, amended: the elements collected are exactly the link elements whose
    rel attribute, split at whitespace, has the token [stylesheet], in
    document order; every other element adds no entry.  A link element
    whose rel attribute is the string [stylesheet] is one of them. *)
Theorem links_with_stylesheet_token_are_collected
    (C : Stdout) (W : World) (url out : string) (r : Response) (soup : Soup) :
  requests_get W url headers = Return r →
  BeautifulSoup W (content r) "html.parser" = Return soup →
  bs4.find_all soup "link" [("rel", "stylesheet")]
  = List.filter rel_has_stylesheet_token (tags_of (bs4.descendants soup))
  ∧ get_css_links C W url out
    = (Return (flat_map (entry url)
                 (List.filter rel_has_stylesheet_token
                    (tags_of (bs4.descendants soup)))), out)
  ∧ ∀ t, rel_equals_stylesheet t = true → rel_has_stylesheet_token t = true.
Proof.
  intros Hr Hs. split; [apply stylesheet_links_filter|]. split.
  - rewrite (get_css_links_ok C W url out r soup Hr Hs).
    by rewrite stylesheet_links_filter.
  - intros t. unfold rel_equals_stylesheet, rel_has_stylesheet_token.
    intros [Hn Hrel]%andb_true_iff. rewrite Hn. simpl.
    apply bool_decide_eq_true in Hrel. by rewrite Hrel.
Qed.

Lemma links_with_stylesheet_token_are_collected_witness :
  get_css_links utf8_stdout (world_serving 200 sample_page) "https://example.com/" ""
  = (Return ["https://cdn.example.com/a.css"; "http://example.com/b.css";
             "https://cdn.example.com/a.css"], "").
Proof.
  apply (links_with_stylesheet_token_are_collected utf8_stdout
           (world_serving 200 sample_page) "https://example.com/" ""
           (mkResponse 200 "<html>") sample_page); reflexivity.
Defined.

(** ** What the results begin with *)

Lemma startswith_lower_rstrip (p s x : string) :
  "/"%char ∉ String.list_ascii_of_string p →
  PyStr.startswith (lower_letters s) p = true →
  PyStr.startswith (lower_letters (PyStr.rstrip s "/" +:+ x)) p = true.
Proof.
  revert s. induction p as [|a p IH]; intros s Hp Hs; [reflexivity|].
  destruct s as [|c s]; [discriminate|].
  cbn [lower_letters PyStr.startswith] in Hs.
  apply andb_true_iff in Hs as [Hc Hs]. apply bool_decide_eq_true in Hc.
  cbn [String.list_ascii_of_string] in Hp.
  apply not_elem_of_cons in Hp as [Ha Hp].
  rewrite rstrip_cons_ne.
  - rewrite app_cons. cbn [lower_letters PyStr.startswith].
    rewrite (bool_decide_true _ Hc). by apply IH.
  - intros ->. apply Ha. by rewrite <- Hc.
Qed.

Lemma no_slash_in_http : "/"%char ∉ String.list_ascii_of_string "http:".
Proof. rewrite list_elem_of_In. cbn. intuition discriminate. Qed.

Lemma no_slash_in_https : "/"%char ∉ String.list_ascii_of_string "https:".
Proof. rewrite list_elem_of_In. cbn. intuition discriminate. Qed.

Lemma normalized_href_has_scheme (url h : string) :
  absolute_http_url url = true →
  PyStr.startswith h "http" = false →
  begins_with_http_scheme (normalized_href url h) = true.
Proof.
  intros Hurl Hh. unfold normalized_href. rewrite Hh. cbn [negb].
  destruct (PyStr.startswith h "//"); [reflexivity|].
  unfold begins_with_http_scheme. apply orb_true_iff.
  apply orb_true_iff in Hurl as [Hu|Hu]; [left|right].
  - apply startswith_lower_rstrip; [apply no_slash_in_http|].
    apply startswith_inv in Hu as [r ->]. reflexivity.
  - apply startswith_lower_rstrip; [apply no_slash_in_https|].
    apply startswith_inv in Hu as [r ->]. reflexivity.
Qed.

(** C3, as stated, fails at a relative href that itself begins with [http]:
    it is returned as it is, and does not begin with the scheme [http:] or
    [https:]. *)
Lemma relative_href_named_http_is_returned :
  ¬ (∀ (C : Stdout) (W : World) (url out : string) (links : list string)
       (out' : string),
       absolute_http_url url = true →
       get_css_links C W url out = (Return links, out') →
       Forall (λ s, begins_with_http_scheme s = true) links).
Proof.
  intros H.
  specialize (H utf8_stdout
                (world_serving 200 [Element (stylesheet_tag "httpfoo.css") []])
                "https://example.com/" "" ["httpfoo.css"] "" eq_refl eq_refl).
  apply Forall_cons in H as [H _]. discriminate H.
Qed.

(** C3, amended: for every url that is an absolute HTTP(S) URL, its scheme
    in any letter case, and every fetched document, every string of the
    result begins with the scheme [http] or [https], except the hrefs that
    themselves begin with the characters [http]: such a href is returned as
    it is, whether or not it is an absolute URL.  Every other href is turned
    into a string that begins with the scheme. *)
Theorem results_have_a_scheme_or_are_http_hrefs
    (C : Stdout) (W : World) (url out : string) (links : list string)
    (out' : string) :
  absolute_http_url url = true →
  get_css_links C W url out = (Return links, out') →
  (∀ s, s ∈ links →
        begins_with_http_scheme s = true
        ∨ ∃ r soup t,
            requests_get W url headers = Return r
            ∧ BeautifulSoup W (content r) "html.parser" = Return soup
            ∧ t ∈ stylesheet_links soup
            ∧ href_of t = Some s
            ∧ PyStr.startswith s "http" = true)
  ∧ (∀ r soup t h,
       requests_get W url headers = Return r →
       BeautifulSoup W (content r) "html.parser" = Return soup →
       t ∈ stylesheet_links soup →
       href_of t = Some h →
       PyStr.startswith h "http" = true →
       h ∈ links
       ∧ ∀ css_links, loop_body url css_links t = Return (css_links ++ [h]))
  ∧ (∀ h, PyStr.startswith h "http" = false →
          begins_with_http_scheme (normalized_href url h) = true).
Proof.
  intros Hurl Hrun.
  split; [|split; [|intros h; by apply normalized_href_has_scheme]].
  - intros s Hs.
    destruct (try_block_cases W url out)
      as [(r & soup & Hr & Hp & _)|(e & Hb & _)].
    + rewrite (get_css_links_ok C W url out r soup Hr Hp) in Hrun.
      injection Hrun as <- _.
      apply list_elem_of_In, in_flat_map in Hs as (t & Ht & Hin).
      apply list_elem_of_In in Ht. apply list_elem_of_In in Hin.
      apply elem_of_entry in Hin as (h & Hh & _ & ->).
      destruct (PyStr.startswith h "http") eqn:Hp'.
      * right. exists r, soup, t.
        rewrite (normalized_href_fixed _ _ Hp'). by repeat split.
      * left. by apply normalized_href_has_scheme.
    + rewrite (get_css_links_after_raise C W url out e Hb) in Hrun.
      destruct (write_error C ("Error: " +:+ exc_str e)); [discriminate|].
      injection Hrun as <- _. by apply elem_of_nil in Hs.
  - intros r soup t h Hr Hp Ht Hh Hhttp.
    assert (He : entry url t = [h]).
    { unfold entry.
      by rewrite Hh, (startswith_http_truthy _ Hhttp), (normalized_href_fixed _ _ Hhttp). }
    split.
    + rewrite (get_css_links_ok C W url out r soup Hr Hp) in Hrun.
      injection Hrun as <- _.
      apply list_elem_of_In, in_flat_map. exists t. split.
      * by apply list_elem_of_In.
      * rewrite He. by left.
    + intros css_links. by rewrite loop_body_entry, He.
Qed.

Lemma results_have_a_scheme_or_are_http_hrefs_witness :
  begins_with_http_scheme (normalized_href "HTTPS://EXAMPLE.COM/" "css/site.css") = true.
Proof.
  destruct (results_have_a_scheme_or_are_http_hrefs utf8_stdout
              (world_serving 200 mixed_page) "HTTPS://EXAMPLE.COM/" ""
              ["HTTPS://EXAMPLE.COM/style.css"; "https://cdn.example.com/a.css"] ""
              eq_refl eq_refl) as (_ & _ & Hscheme).
  apply Hscheme. reflexivity.
Defined.

(** ** Exceptions *)

(** C2, as stated, fails when standard output refuses the diagnostic: the
    [print] of line 25 is in the handler, under no [try], and its exception
    reaches the caller. *)
Lemma handler_print_can_raise :
  ¬ (∀ (C : Stdout) (W : World) (url out : string),
       ∃ links out', get_css_links C W url out = (Return links, out')).
Proof.
  intros H.
  destruct (H ascii_stdout
              (world_failing (mkException "ConnectionError" ("no route to " +:+ cafe)))
              "https://example.com/" "") as (links & out' & Hrun).
  discriminate Hrun.
Qed.

(** C2, amended: for every url, every exception raised in the try block, be
    it by the request or by the parser (the loop raises none), is caught by
    the handler.  When standard output takes the diagnostic, the line
    [Error: ] with the message is printed and the empty list is returned;
    when writing the diagnostic raises, that exception reaches the caller
    and nothing is printed.  No other exception leaves the function, and
    none at all on a standard output that takes every string. *)
Theorem exceptions_are_caught_and_reported
    (C : Stdout) (W : World) (url out : string) :
  (∀ e out', try_block W url out = (Raise e, out') →
     (accepts C ("Error: " +:+ exc_str e) →
        get_css_links C W url out
        = (Return [], out +:+ ("Error: " +:+ exc_str e) +:+ newline))
     ∧ (∀ e', write_error C ("Error: " +:+ exc_str e) = Some e' →
          get_css_links C W url out = (Raise e', out)))
  ∧ (∀ e, requests_get W url headers = Raise e →
          try_block W url out = (Raise e, out))
  ∧ (∀ r e, requests_get W url headers = Return r →
            BeautifulSoup W (content r) "html.parser" = Raise e →
            try_block W url out = (Raise e, out))
  ∧ (∀ soup css_links, ∃ css_links',
       for_in (bs4.find_all soup "link" [("rel", "stylesheet")])
              (loop_body url) css_links = Return css_links')
  ∧ (∀ e' out', get_css_links C W url out = (Raise e', out') →
       out' = out
       ∧ ∃ e, try_block W url out = (Raise e, out)
              ∧ write_error C ("Error: " +:+ exc_str e) = Some e')
  ∧ ((∀ s, accepts C s) →
       ∃ links out', get_css_links C W url out = (Return links, out')).
Proof.
  assert (Hraise : ∀ e' out', get_css_links C W url out = (Raise e', out') →
            out' = out
            ∧ ∃ e, try_block W url out = (Raise e, out)
                   ∧ write_error C ("Error: " +:+ exc_str e) = Some e').
  { intros e' out' Hrun.
    destruct (try_block_cases W url out)
      as [(r & soup & Hr & Hp & _)|(e & Hb & _)].
    - by rewrite (get_css_links_ok C W url out r soup Hr Hp) in Hrun.
    - rewrite (get_css_links_after_raise C W url out e Hb) in Hrun.
      destruct (write_error C ("Error: " +:+ exc_str e)) as [e''|] eqn:Hw;
        [|discriminate].
      injection Hrun as <- <-. split; [done|]. by exists e. }
  repeat split.
  - intros Ha. pose proof (try_block_prints_nothing _ _ _ _ _ H) as ->.
    by apply get_css_links_after_raise_accepted.
  - intros e' Hw. pose proof (try_block_prints_nothing _ _ _ _ _ H) as ->.
    by apply (get_css_links_after_raise_refused C W url out e).
  - apply try_block_fetch_error.
  - apply try_block_parse_error.
  - intros soup css_links. rewrite for_in_loop_body. by eauto.
  - by apply (Hraise e' out').
  - by apply (Hraise e' out').
  - intros Hall.
    destruct (get_css_links C W url out) as [[links|e'] out''] eqn:Hrun;
      [by eauto|].
    destruct (Hraise e' out'' eq_refl) as (_ & e & _ & Hw).
    specialize (Hall ("Error: " +:+ exc_str e)). unfold accepts in Hall.
    by rewrite Hall in Hw.
Qed.

Lemma exceptions_are_caught_and_reported_witness :
  get_css_links ascii_stdout (world_failing ConnectionError) "https://example.com/" ""
  = (Return [], "Error: connection refused" +:+ newline).
Proof.
  destruct (exceptions_are_caught_and_reported ascii_stdout
              (world_failing ConnectionError) "https://example.com/" "")
    as (Hcaught & _).
  apply (Hcaught ConnectionError ""); reflexivity.
Defined.

(** ** The entry point *)

Lemma app_nil_r_str (s : string) : s +:+ "" = s.
Proof. induction s as [|a s IH]; [reflexivity|]. by rewrite app_cons, IH. Qed.

(** Every string is taken: all are printed, each with its line end. *)
Lemma for_each_print_accepted C (l : list string) (out : string) :
  Forall (accepts C) l →
  for_each l (λ link, print C link) out = (Return (), out +:+ lines l).
Proof.
  intros Hl. revert out. induction Hl as [|s l Hs _ IH]; intros out.
  - cbn. unfold mret, Py_ret. by rewrite app_nil_r_str.
  - cbn [for_each lines foldr]. unfold mbind, Py_bind, print at 1.
    unfold accepts in Hs. rewrite Hs, IH. by rewrite !app_assoc_str.
Qed.

(** The first string that is refused ends the loop, with what was printed
    before it. *)
Lemma for_each_print_refused C (before : list string) (s : string)
    (after : list string) (e : Exception) (out : string) :
  Forall (accepts C) before →
  write_error C s = Some e →
  for_each (before ++ s :: after) (λ link, print C link) out
  = (Raise e, out +:+ lines before).
Proof.
  intros Hl Hs. revert out. induction Hl as [|s' l Hs' _ IH]; intros out.
  - cbn [app for_each lines foldr]. unfold mbind, Py_bind, print at 1.
    by rewrite Hs, app_nil_r_str.
  - cbn [app for_each lines foldr]. unfold mbind, Py_bind, print at 1.
    unfold accepts in Hs'. rewrite Hs', IH. by rewrite !app_assoc_str.
Qed.

Lemma main_after_get_css_links C W out links out' :
  get_css_links C W "https://landonorris.com/" out = (Return links, out') →
  main C W out
  = for_each
      (("Found " +:+ PyStr.str_of_len (length links) +:+ " CSS files:") :: links)
      (λ link, print C link) out'.
Proof. intros Hg. unfold main, mbind at 1, Py_bind at 1. by rewrite Hg. Qed.

Lemma main_after_raise C W out e out' :
  get_css_links C W "https://landonorris.com/" out = (Raise e, out') →
  main C W out = (Raise e, out').
Proof. intros Hg. unfold main, mbind at 1, Py_bind at 1. by rewrite Hg. Qed.

(** [str] of a length is its decimal numeral. *)
Lemma pretty_N_go_app (x : N) (s : string) :
  pretty_N_go x s = pretty_N_go x "" +:+ s.
Proof.
  revert s. induction (N.lt_wf_0 x) as [x _ IH]; intros s.
  destruct (decide (x = 0)%N) as [->|Hx]; [by rewrite !pretty_N_go_0|].
  rewrite !(pretty_N_go_step x) by lia.
  rewrite (IH (x `div` 10)%N) by (apply N.div_lt; lia).
  rewrite (IH (x `div` 10)%N (ltac:(apply N.div_lt; lia))
              (String (pretty_N_char (x `mod` 10)) "")).
  by rewrite app_assoc_str.
Qed.

Lemma str_of_len_digit (n : nat) :
  n < 10 → PyStr.str_of_len n = String (ascii_of_nat (48 + n)) "".
Proof.
  intros Hn. do 10 (destruct n as [|n]; [reflexivity|]). lia.
Qed.

Lemma str_of_len_step (n : nat) :
  10 ≤ n →
  PyStr.str_of_len n
  = PyStr.str_of_len (Nat.div n 10) +:+ PyStr.str_of_len (Nat.modulo n 10).
Proof.
  intros Hn.
  assert (Hm : Nat.modulo n 10 < 10) by (apply Nat.mod_upper_bound; lia).
  assert (Hd : 1 ≤ Nat.div n 10) by (apply Nat.div_le_lower_bound; lia).
  rewrite (str_of_len_digit _ Hm).
  unfold PyStr.str_of_len, pretty, pretty_nat, pretty, pretty_N.
  rewrite !decide_False by lia.
  rewrite pretty_N_go_step by lia. rewrite pretty_N_go_app.
  assert (E1 : (N.of_nat n `div` 10)%N = N.of_nat (Nat.div n 10))
    by (by rewrite Nat2N.inj_div).
  assert (E2 : (N.of_nat n `mod` 10)%N = N.of_nat (Nat.modulo n 10))
    by (by rewrite Nat2N.inj_mod).
  rewrite E1, E2. f_equal. f_equal. clear E1 E2 Hd.
  generalize dependent (Nat.modulo n 10). intros m Hm.
  do 10 (destruct m as [|m]; [reflexivity|]). lia.
Qed.

Lemma count_app (s1 s2 : string) (ch : ascii) :
  PyStr.count (s1 +:+ s2) ch = PyStr.count s1 ch + PyStr.count s2 ch.
Proof.
  induction s1 as [|c s1 IH]; [reflexivity|].
  rewrite app_cons. cbn [PyStr.count]. rewrite IH. lia.
Qed.

Lemma count_lines (l : list string) :
  Forall (λ s, PyStr.count s "010" = 0) l →
  PyStr.count (lines l) "010" = length l.
Proof.
  induction 1 as [|s l Hs _ IH]; [reflexivity|].
  cbn [lines foldr length]. rewrite !count_app. fold (lines l).
  rewrite Hs, IH. reflexivity.
Qed.

Lemma count_str_of_len (n : nat) : PyStr.count (PyStr.str_of_len n) "010" = 0.
Proof.
  induction (lt_wf n) as [n _ IH].
  destruct (decide (n < 10)) as [Hn|Hn].
  - rewrite (str_of_len_digit _ Hn).
    do 10 (destruct n as [|n]; [reflexivity|]). lia.
  - rewrite str_of_len_step by lia. rewrite count_app.
    rewrite !IH; [reflexivity| |].
    + apply Nat.lt_le_trans with 10; [apply Nat.mod_upper_bound|]; lia.
    + apply Nat.div_lt; lia.
Qed.




(** ** Determinism *)



(** * Further properties of the code *)

(** ** More facts about stripping *)

Lemma rstrip_app_ch (s : string) (ch : ascii) :
  PyStr.rstrip (s +:+ String ch "") ch = PyStr.rstrip s ch.
Proof.
  induction s as [|c s IH].
  - change ("" +:+ String ch "") with (String ch ""). cbn [PyStr.rstrip].
    by rewrite bool_decide_true.
  - rewrite app_cons. cbn [PyStr.rstrip]. by rewrite IH.
Qed.

Lemma app_ch_not_empty (p : string) (ch : ascii) : "" ≠ p +:+ String ch "".
Proof. by destruct p. Qed.

Lemma rstrip_no_trailing (s : string) (ch : ascii) (p : string) :
  PyStr.rstrip s ch ≠ p +:+ String ch "".
Proof.
  revert p. induction s as [|c s IH]; intros p.
  - apply app_ch_not_empty.
  - cbn [PyStr.rstrip]. destruct (PyStr.rstrip s ch) as [|a r] eqn:Hr.
    + case_bool_decide as Hc; [apply app_ch_not_empty|].
      destruct p as [|x p]; [intros [= ->]; by apply Hc|].
      rewrite app_cons. intros [= _ H]. by apply app_ch_not_empty in H.
    + destruct p as [|x p]; [intros [= _ H]; discriminate H|].
      rewrite app_cons. intros [= _ H]. by apply (IH p).
Qed.

Lemma lstrip_no_leading (s : string) (ch : ascii) :
  PyStr.startswith (PyStr.lstrip s ch) (String ch "") = false.
Proof.
  induction s as [|c s IH]; [reflexivity|]. cbn [PyStr.lstrip].
  case_bool_decide as Hc; [exact IH|]. cbn. by rewrite bool_decide_false.
Qed.

Lemma lstrip_id (s : string) (ch : ascii) :
  PyStr.startswith s (String ch "") = false → PyStr.lstrip s ch = s.
Proof.
  destruct s as [|c s]; [reflexivity|]. cbn.
  case_bool_decide; [discriminate|reflexivity].
Qed.

Lemma startswith_slash_not_http (h : string) :
  PyStr.startswith h "/" = true → PyStr.startswith h "http" = false.
Proof.
  intros [r ->]%startswith_inv. reflexivity.
Qed.

Lemma normalized_href_http_prefix (url h : string) :
  PyStr.startswith url "http" = true →
  PyStr.startswith (normalized_href url h) "http" = true.
Proof.
  intros [r ->]%startswith_inv. unfold normalized_href.
  destruct (PyStr.startswith h "http") eqn:Hh; cbn [negb]; [exact Hh|].
  destruct (PyStr.startswith h "//"); [reflexivity|].
  by rewrite rstrip_http.
Qed.

(** ** The normalization as a function of the page URL and the href *)

(** X1: normalizing twice is normalizing once, for a page URL that begins
    with [http]: what lines 17-21 produce is left as it is when it goes
    through them again. *)
Theorem normalization_is_idempotent (url h : string) :
  PyStr.startswith url "http" = true →
  normalized_href url (normalized_href url h) = normalized_href url h.
Proof.
  intros Hurl. apply normalized_href_fixed.
  by apply normalized_href_http_prefix.
Qed.

Lemma normalization_is_idempotent_witness :
  normalized_href "https://example.com/" "https://example.com/css/site.css"
  = "https://example.com/css/site.css".
Proof.
  apply (normalization_is_idempotent "https://example.com/" "/css/site.css").
  reflexivity.
Defined.

(** Without a page URL that begins with [http] a second pass changes the
    string again. *)
Example normalization_twice_without_scheme :
  normalized_href "example.com" "a.css" = "example.com/a.css"
  ∧ normalized_href "example.com" "example.com/a.css"
    = "example.com/example.com/a.css".
Proof. split; reflexivity. Qed.

(** X2: a [/] at the end of the page URL makes no difference to what an
    element adds; [url.rstrip('/')] removes it. *)
Theorem trailing_slash_of_page_url_is_ignored
    (url : string) (css_links : list string) (t : Tag) :
  loop_body (url +:+ "/") css_links t = loop_body url css_links t.
Proof.
  rewrite !loop_body_entry. unfold entry, normalized_href.
  by rewrite (rstrip_app_ch url "/").
Qed.

(** X3: a href with neither a leading [/] nor the prefix [http] is put
    after the page URL and a [/] as it is, and writing one [/] before it
    gives the same string. *)
Theorem leading_slash_of_relative_href_is_ignored (url h : string) :
  PyStr.startswith h "http" = false →
  PyStr.startswith h "/" = false →
  normalized_href url h = PyStr.rstrip url "/" +:+ "/" +:+ h
  ∧ normalized_href url ("/" +:+ h) = normalized_href url h.
Proof.
  intros Hh Hs.
  assert (Hss : PyStr.startswith h "//" = false).
  { destruct h as [|c h]; [reflexivity|]. cbn in Hs |- *.
    case_bool_decide; [discriminate|reflexivity]. }
  assert (H1 : normalized_href url h = PyStr.rstrip url "/" +:+ "/" +:+ h).
  { unfold normalized_href. by rewrite Hh, Hss, (lstrip_id _ _ Hs). }
  split; [exact H1|]. rewrite H1. unfold normalized_href.
  change (PyStr.startswith ("/" +:+ h) "http") with false.
  change (PyStr.startswith ("/" +:+ h) "//") with (true && PyStr.startswith h "/").
  rewrite Hs. cbn [negb andb].
  change (PyStr.lstrip ("/" +:+ h) "/") with (PyStr.lstrip h "/").
  by rewrite (lstrip_id _ _ Hs).
Qed.

Lemma leading_slash_of_relative_href_is_ignored_witness :
  normalized_href "https://example.com/" "../theme/a.css?v=2"
  = PyStr.rstrip "https://example.com/" "/" +:+ "/" +:+ "../theme/a.css?v=2"
  ∧ normalized_href "https://example.com/" ("/" +:+ "../theme/a.css?v=2")
    = normalized_href "https://example.com/" "../theme/a.css?v=2".
Proof.
  apply (leading_slash_of_relative_href_is_ignored "https://example.com/"
           "../theme/a.css?v=2"); reflexivity.
Defined.

(** X4: in the last branch the two parts meet at exactly one [/]: what is
    left of the page URL does not end with [/], what is left of the href
    does not begin with [/], and at most one character was taken off the
    href, because a href with two leading [/] takes the branch before. *)
Theorem relative_href_is_joined_by_one_slash (url h : string) :
  PyStr.startswith h "http" = false →
  PyStr.startswith h "//" = false →
  normalized_href url h
  = PyStr.rstrip url "/" +:+ "/" +:+ PyStr.lstrip h "/"
  ∧ (∀ p, PyStr.rstrip url "/" ≠ p +:+ "/")
  ∧ PyStr.startswith (PyStr.lstrip h "/") "/" = false
  ∧ (h = PyStr.lstrip h "/" ∨ h = "/" +:+ PyStr.lstrip h "/").
Proof.
  intros Hh Hss. repeat split.
  - unfold normalized_href. by rewrite Hh, Hss.
  - intros p. apply rstrip_no_trailing.
  - apply lstrip_no_leading.
  - destruct h as [|c h]; [by left|]. cbn [PyStr.lstrip].
    case_bool_decide as Hc; [|by left]. right. subst c.
    change (PyStr.startswith (String "/" h) "//")
      with (true && PyStr.startswith h "/") in Hss.
    cbn [andb] in Hss. by rewrite (lstrip_id _ _ Hss).
Qed.

Lemma relative_href_is_joined_by_one_slash_witness :
  normalized_href "https://example.com///" "/css/site.css"
  = PyStr.rstrip "https://example.com///" "/" +:+ "/"
    +:+ PyStr.lstrip "/css/site.css" "/".
Proof.
  apply (relative_href_is_joined_by_one_slash "https://example.com///"
           "/css/site.css"); reflexivity.
Defined.

(** X5: a href that begins with [//] is given the scheme [https:] whatever
    the page URL is, also for a page fetched over [http:]. *)
Theorem scheme_relative_href_gets_https
    (url : string) (css_links : list string) (t : Tag) (h : string) :
  href_of t = Some h →
  PyStr.startswith h "//" = true →
  loop_body url css_links t = Return (css_links ++ ["https:" +:+ h]).
Proof.
  intros Ht Hss. rewrite loop_body_entry. unfold entry. rewrite Ht.
  assert (Hs : PyStr.startswith h "/" = true).
  { apply startswith_inv in Hss as [r ->]. reflexivity. }
  assert (Htr : PyStr.truthy h = true) by (by destruct h).
  rewrite Htr. unfold normalized_href.
  by rewrite (startswith_slash_not_http _ Hs), Hss.
Qed.

Lemma scheme_relative_href_gets_https_witness :
  loop_body "http://plain.example.com/" [] (stylesheet_tag "//cdn.example.com/a.css")
  = Return ["https://cdn.example.com/a.css"].
Proof.
  apply (scheme_relative_href_gets_https "http://plain.example.com/" []
           (stylesheet_tag "//cdn.example.com/a.css") "//cdn.example.com/a.css");
    reflexivity.
Defined.

(** ** How many entries, and from which attributes *)

(** X7: every stylesheet link element adds at most one entry: after a
    successful fetch and parse the result is never longer than the list of
    selected elements, which is never longer than the list of tags of the
    document. *)
Theorem at_most_one_entry_per_element
    (C : Stdout) (W : World) (url out : string) (r : Response) (soup : Soup) :
  requests_get W url headers = Return r →
  BeautifulSoup W (content r) "html.parser" = Return soup →
  ∃ links,
    get_css_links C W url out = (Return links, out)
    ∧ length links ≤ length (stylesheet_links soup)
    ∧ length (stylesheet_links soup) ≤ length (tags_of (bs4.descendants soup)).
Proof.
  intros Hr Hs. eexists. split; [by apply (get_css_links_ok C W url out r soup)|].
  split.
  - rewrite entries_length. apply List.filter_length_le.
  - rewrite stylesheet_links_filter. apply List.filter_length_le.
Qed.

Lemma at_most_one_entry_per_element_witness :
  ∃ links,
    get_css_links utf8_stdout (world_serving 200 mixed_page) "https://example.com/" ""
    = (Return links, "")
    ∧ length links ≤ length (stylesheet_links mixed_page)
    ∧ length (stylesheet_links mixed_page)
      ≤ length (tags_of (bs4.descendants mixed_page)).
Proof.
  apply (at_most_one_entry_per_element utf8_stdout (world_serving 200 mixed_page)
           "https://example.com/" "" (mkResponse 200 "<html>") mixed_page);
    reflexivity.
Defined.

(** X8: the function reads the name, the rel attribute and the href
    attribute of a tag and nothing else: two tags that agree on these three
    are selected alike and change [css_links] alike. *)
Theorem only_name_rel_and_href_are_read (t1 t2 : Tag) :
  name t1 = name t2 →
  attrs t1 !! "rel" = attrs t2 !! "rel" →
  attrs t1 !! "href" = attrs t2 !! "href" →
  stylesheet_link t1 = stylesheet_link t2
  ∧ ∀ url css_links, loop_body url css_links t1 = loop_body url css_links t2.
Proof.
  intros Hn Hrel Hhref. split.
  - rewrite !stylesheet_link_token. unfold rel_has_stylesheet_token.
    by rewrite Hn, Hrel.
  - intros url css_links. rewrite !loop_body_entry. unfold entry, href_of.
    by rewrite Hhref.
Qed.

Lemma only_name_rel_and_href_are_read_witness :
  stylesheet_link
    (mkTag "link" {[ "rel" := "stylesheet"; "href" := "print.css";
                     "media" := "print"; "integrity" := "sha384-abc" ]})
  = stylesheet_link (stylesheet_tag "print.css").
Proof.
  apply (only_name_rel_and_href_are_read
           (mkTag "link" {[ "rel" := "stylesheet"; "href" := "print.css";
                            "media" := "print"; "integrity" := "sha384-abc" ]})
           (stylesheet_tag "print.css")); reflexivity.
Defined.

(** ** What the function prints *)

(** X9: the function only adds to standard output, and what it adds is the
    diagnostic of the handler: the text is unchanged if and only if the try
    block returned a list or the call raised, that is, the line [Error: ...]
    is there exactly when the call returns after a failure. *)
Theorem prints_exactly_when_the_handler_prints
    (C : Stdout) (W : World) (url out : string) :
  (∃ suffix, (get_css_links C W url out).2 = out +:+ suffix)
  ∧ ((get_css_links C W url out).2 = out
     ↔ (∃ links, try_block W url out = (Return links, out))
       ∨ (∃ e', (get_css_links C W url out).1 = Raise e')).
Proof.
  destruct (try_block_cases W url out)
    as [(r & soup & Hr & Hp & Hb)|(e & Hb & _)].
  - rewrite (get_css_links_ok C W url out r soup Hr Hp). cbn. split.
    + exists "". by rewrite app_nil_r_str.
    + split; [|done]. intros _. left. by eauto.
  - rewrite (get_css_links_after_raise C W url out e Hb).
    destruct (write_error C ("Error: " +:+ exc_str e)) as [e'|]; cbn.
    + split; [exists ""; by rewrite app_nil_r_str|].
      split; [|done]. intros _. right. by eauto.
    + split; [by eauto|]. split.
      * intros H. rewrite <- (app_nil_r_str out) in H at 2.
        apply String.app_inj in H. discriminate H.
      * intros [[links Hl]|[e' He']]; [|discriminate He'].
        rewrite Hb in Hl. discriminate Hl.
Qed.

(** ** Where the results come from *)

(** X10: after a successful fetch and parse the result holds nothing but
    normalized hrefs of selected elements, and leaves none out: a string is
    in the result exactly when it is the normalized form of the non-empty
    href of some stylesheet link element of the document. *)
Theorem results_are_the_normalized_hrefs
    (C : Stdout) (W : World) (url out : string) (r : Response) (soup : Soup) :
  requests_get W url headers = Return r →
  BeautifulSoup W (content r) "html.parser" = Return soup →
  ∃ links,
    get_css_links C W url out = (Return links, out)
    ∧ ∀ s, s ∈ links
           ↔ ∃ t h, t ∈ stylesheet_links soup ∧ href_of t = Some h
                    ∧ h ≠ "" ∧ s = normalized_href url h.
Proof.
  intros Hr Hs. eexists. split; [by apply (get_css_links_ok C W url out r soup)|].
  intros s. rewrite list_elem_of_In, in_flat_map. split.
  - intros (t & Ht%list_elem_of_In & Hin%list_elem_of_In).
    apply elem_of_entry in Hin as (h & Hh & Hne & ->). by exists t, h.
  - intros (t & h & Ht & Hh & Hne & ->). exists t. split.
    + by apply list_elem_of_In.
    + apply list_elem_of_In, elem_of_entry. by exists h.
Qed.

Lemma results_are_the_normalized_hrefs_witness :
  ∃ links,
    get_css_links utf8_stdout (world_serving 200 mixed_page) "https://example.com/" ""
    = (Return links, "")
    ∧ ∀ s, s ∈ links
           ↔ ∃ t h, t ∈ stylesheet_links mixed_page ∧ href_of t = Some h
                    ∧ h ≠ "" ∧ s = normalized_href "https://example.com/" h.
Proof.
  apply (results_are_the_normalized_hrefs utf8_stdout (world_serving 200 mixed_page)
           "https://example.com/" "" (mkResponse 200 "<html>") mixed_page);
    reflexivity.
Defined.

(** ** What the script depends on *)

(** X11: on one and the same standard output, the script depends on the
    world through one thing only, the page at the URL written in it, asked
    for with the headers of line 8 and parsed with [html.parser]: two
    worlds that answer that request alike and parse alike with that parser
    give the same exit status and the same text. *)
Theorem script_reads_one_page (C : Stdout) (W1 W2 : World) :
  requests_get W1 "https://landonorris.com/" headers
  = requests_get W2 "https://landonorris.com/" headers →
  (∀ markup, BeautifulSoup W1 markup "html.parser"
             = BeautifulSoup W2 markup "html.parser") →
  run_script C W1 = run_script C W2.
Proof.
  intros Hreq Hparse.
  assert (Hb : ∀ out, try_block W1 "https://landonorris.com/" out
                      = try_block W2 "https://landonorris.com/" out).
  { intros out. unfold try_block, mbind, Py_bind, lift. rewrite Hreq.
    destruct (requests_get W2 "https://landonorris.com/" headers) as [r|e];
      [|reflexivity].
    by rewrite Hparse. }
  unfold run_script, main, mbind, Py_bind, get_css_links, try_except.
  by rewrite Hb.
Qed.

Lemma script_reads_one_page_witness :
  run_script ascii_stdout (world_serving 200 mixed_page)
  = run_script ascii_stdout
      (mkWorld (λ url _, if bool_decide (url = "https://landonorris.com/")
                         then Return (mkResponse 200 "<html>")
                         else Raise ConnectionError)
               (λ _ features, if bool_decide (features = "html.parser")
                              then Return mixed_page
                              else Return [])).
Proof.
  apply (script_reads_one_page ascii_stdout (world_serving 200 mixed_page));
    reflexivity.
Defined.
